(** * ha_integration_domain: the sensor platform

    A shallow embedding of [custom_components/ha_integration_domain/const.py]
    and [custom_components/ha_integration_domain/sensor.py], and the
    properties of [ENTITY_DESCRIPTIONS], [async_setup_entry] and
    [IntegrationBlueprintSensor.native_value].

    Python objects that are shared by reference (the coordinator) live in an
    explicit store; code that can raise returns an [Outcome]; a coroutine
    function is a function to its first [AsyncStep]. *)

From stdpp Require Import gmap strings list.

Local Open Scope string_scope.

(** ** const.py *)

Module Const.

Definition DOMAIN : string := "ha_integration_domain".

Definition ATTRIBUTION : string :=
  "Data provided by http://jsonplaceholder.typicode.com/".

End Const.

(** ** Python values, exceptions and the store *)

Inductive PyExc : Type :=
| AttributeError (type_of_object attribute : string).

Inductive Outcome (A : Type) : Type :=
| Ok (a : A)
| Raise (e : PyExc).

Arguments Ok {A} a.
Arguments Raise {A} e.

(** The values a coordinator can cache: what a decoded JSON document is made
    of, plus tuples, plus instances of other classes.  Dictionaries are
    keyed by strings, as the spec's data model has them.  A float is kept as
    its binary64 bit pattern; no code here looks inside one.  [PObject] is
    an instance of a class [cls] that is not a mapping; [get] is its [get]
    method, when the class has one, as the function from the key it is
    called with to what the call returns or raises (a method with effects
    of its own on other objects is not represented). *)
#[warnings="-register-all"]
Inductive PyVal : Type :=
| PNone
| PBool (b : bool)
| PInt (z : Z)
| PFloat (bits : Z)
| PStr (s : string)
| PList (items : list PyVal)
| PTuple (items : list PyVal)
| PDict (d : gmap string PyVal)
| PObject (cls : string) (get : option (string -> Outcome PyVal)).

(** [type(v).__name__] *)
Definition type_name (v : PyVal) : string :=
  match v with
  | PNone => "NoneType"
  | PBool _ => "bool"
  | PInt _ => "int"
  | PFloat _ => "float"
  | PStr _ => "str"
  | PList _ => "list"
  | PTuple _ => "tuple"
  | PDict _ => "dict"
  | PObject cls _ => cls
  end.


(** Whether the lookup of the attribute [get] on [v] succeeds: on a [dict],
    and on an instance of a class that defines [get]. *)
Definition has_get (v : PyVal) : bool :=
  match v with
  | PDict _ => true
  | PObject _ (Some _) => true
  | _ => false
  end.

(** Object identity of a coordinator. *)
Definition loc : Type := nat.

(** ** The records of the host framework and of data.py *)

(** [homeassistant.components.sensor.SensorEntityDescription], restricted to
    the fields sensor.py sets; [translation_key] and [icon] default to
    [None] in the host's dataclass. *)
Record SensorEntityDescription : Type := mkSensorEntityDescription {
  key : string;
  translation_key : option string;
  icon : option string
}.

(** The host's update coordinator: the cached [data] (``None`` until the
    first refresh has succeeded) and state this platform never reads. *)
Record Coordinator : Type := mkCoordinator {
  data : PyVal;
  last_update_success : bool;
  update_count : nat
}.

(** The [hass] context handed to [async_setup_entry]. *)
Record HomeAssistant : Type := mkHomeAssistant {
  config_dir : string;
  hass_data : gmap string PyVal
}.

Module Data.

(** Modelled from the spec: data.py is not among the sources.  The config
    entry carries a [runtime_data] object whose [coordinator] attribute
    refers to the coordinator (sensor.py reads
    [entry.runtime_data.coordinator]); the other fields stand for the rest
    of the entry's state. *)
Record IntegrationBlueprintData : Type := mkIntegrationBlueprintData {
  coordinator : loc;
  integration : string
}.

Record IntegrationBlueprintConfigEntry : Type :=
  mkIntegrationBlueprintConfigEntry {
  entry_id : string;
  title : string;
  runtime_data : IntegrationBlueprintData
}.

End Data.

(** ** sensor.py *)

Module Sensor.

(** Modelled from the spec: the constructor of [IntegrationBlueprintSensor]
    is inherited from [IntegrationBlueprintEntity] (entity.py, not among
    the sources).  An instance is represented by the two keyword arguments
    it is constructed from, which the accessor reads back as
    [self.coordinator] and [self.entity_description]; [coordinator] is a
    reference, so that sensors of one entry share one coordinator. *)
Record IntegrationBlueprintSensor : Type := mkIntegrationBlueprintSensor {
  coordinator : loc;
  entity_description : SensorEntityDescription
}.

(** What the program can observe and change: the coordinator objects and
    the entities the host platform has been asked to add, one list per
    call of the callback. *)
Record World : Type := mkWorld {
  coordinators : loc -> Coordinator;
  added : list (list IntegrationBlueprintSensor)
}.

(** Computations over the world that return or raise. *)
Definition Py (A : Type) : Type := World -> Outcome A * World.

Definition ret {A : Type} (a : A) : Py A := fun w => (Ok a, w).

Definition raise {A : Type} (e : PyExc) : Py A := fun w => (Raise e, w).

Definition bind {A B : Type} (c : Py A) (k : A -> Py B) : Py B :=
  fun w =>
    match c w with
    | (Ok a, w') => k a w'
    | (Raise e, w') => (Raise e, w')
    end.

Notation "x <- c ;; k" := (bind c (fun x => k))
  (at level 100, c at next level, right associativity).

(** Following a reference to a coordinator. *)
Definition deref (l : loc) : Py Coordinator :=
  fun w => (Ok (coordinators w l), w).

(** [dict.get(key)]: the value under [key], or [None]. *)
Definition dict_get (d : gmap string PyVal) (k : string) : PyVal :=
  match d !! k with
  | Some v => v
  | None => PNone
  end.

(** [obj.get(key)]: the attribute [get] is looked up on whatever [obj] is,
    with no check of its type, and called with [key].  A [dict] answers
    with [dict.get]; an object of a class with a [get] method answers with
    that method; on every other value the lookup of the attribute fails. *)
Definition call_get (obj : PyVal) (k : string) : Py PyVal :=
  match obj with
  | PDict d => ret (dict_get d k)
  | PObject _ (Some get) => fun w => (get k, w)
  | _ => raise (AttributeError (type_name obj) "get")
  end.

Definition ENTITY_DESCRIPTIONS : list SensorEntityDescription :=
  [ {| key := "ha_integration_domain";
       translation_key := Some "ha_integration_domain";
       icon := Some "mdi:format-quote-close" |} ].

(** [return self.coordinator.data.get("body")] *)
Definition native_value (self : IntegrationBlueprintSensor) : Py PyVal :=
  c <- deref (coordinator self) ;;
  call_get (data c) "body".

(** One step of a coroutine: it has returned (or raised), or it is
    suspended at an [await] and waits to be resumed with a value. *)
Inductive AsyncStep (A : Type) : Type :=
| Returned (o : Outcome A) (w : World)
| Suspended (w : World) (resume : PyVal -> World -> AsyncStep A).

Arguments Returned {A} o w.
Arguments Suspended {A} w resume.

(** An [async def] whose body has no [await]: driving the coroutine runs
    the body to its end. *)
Definition async_def {A : Type} (body : Py A) : World -> AsyncStep A :=
  fun w => let (o, w') := body w in Returned o w'.

(** [AddEntitiesCallback]: a synchronous callable of the host taking the
    new entities.  The generator expression of the source is passed as the
    sequence of the entities it yields. *)
Definition AddEntitiesCallback : Type :=
  list IntegrationBlueprintSensor -> Py unit.

Definition async_setup_entry (hass : HomeAssistant)
    (entry : Data.IntegrationBlueprintConfigEntry)
    (async_add_entities : AddEntitiesCallback) : World -> AsyncStep unit :=
  async_def
    (async_add_entities
       (map (fun entity_description =>
               {| coordinator := Data.coordinator (Data.runtime_data entry);
                  entity_description := entity_description |})
            ENTITY_DESCRIPTIONS)).

(** A host callback that records the entities it is given. *)
Definition record_entities : AddEntitiesCallback :=
  fun new_entities w =>
    (Ok tt, {| coordinators := coordinators w;
               added := added w ++ [new_entities] |}).

End Sensor.

(** ** Concrete inputs *)

Import Sensor.

(** The coordinator object [self.coordinator] refers to. *)
Definition coordinator_of (self : IntegrationBlueprintSensor) (w : World)
  : Coordinator :=
  coordinators w (coordinator self).

Definition quote_description : SensorEntityDescription :=
  {| key := "ha_integration_domain";
     translation_key := Some "ha_integration_domain";
     icon := Some "mdi:format-quote-close" |}.

Definition other_description : SensorEntityDescription :=
  {| key := "other"; translation_key := None; icon := None |}.

(** A world in which every coordinator caches [d]. *)
Definition world_with (d : PyVal) : World :=
  {| coordinators := fun _ => mkCoordinator d true 1; added := [] |}.

(** A world in which coordinator [7] caches [d] and the others have not
    been refreshed yet; one sensor has already been added. *)
Definition busy_world_with (d : PyVal) : World :=
  {| coordinators := fun l =>
       if Nat.eqb l 7 then mkCoordinator d false 12
       else mkCoordinator PNone false 0;
     added := [[mkIntegrationBlueprintSensor 3 other_description]] |}.

Definition sensor0 : IntegrationBlueprintSensor :=
  mkIntegrationBlueprintSensor 0 quote_description.

Definition sensor7 : IntegrationBlueprintSensor :=
  mkIntegrationBlueprintSensor 7 other_description.

Definition post_without_body : gmap string PyVal :=
  <["title" := PStr "sunt aut facere"]> (<["id" := PInt 1]> ∅).

Definition post : gmap string PyVal :=
  <["body" := PStr "quia et suscipit"]> post_without_body.


Definition entry5 : Data.IntegrationBlueprintConfigEntry :=
  Data.mkIntegrationBlueprintConfigEntry "01J" "Blueprint"
    (Data.mkIntegrationBlueprintData 5 "ha_integration_domain").

Definition hass_a : HomeAssistant := mkHomeAssistant "/config" ∅.

Definition hass_b : HomeAssistant :=
  mkHomeAssistant "/srv/hass" (<["ha_integration_domain" := PBool true]> ∅).

(** ** Running the platform: setup, then reads *)

(** The world a coroutine step leaves behind. *)
Definition world_of {A : Type} (s : AsyncStep A) : World :=
  match s with
  | Returned _ w => w
  | Suspended w _ => w
  end.

(** The world after the host has set up the platform for [entry] with the
    recording callback. *)
Definition after_setup (hass : HomeAssistant)
    (entry : Data.IntegrationBlueprintConfigEntry) (w : World) : World :=
  world_of (async_setup_entry hass entry record_entities w).



(** ** The accessor, evaluated *)

Section NativeValue.

Variable self : IntegrationBlueprintSensor.
Variable w : World.

(** The outcome depends on [self.coordinator.data] only, and the world is
    handed back as it was received. *)
Lemma native_value_eval :
  native_value self w =
  (match data (coordinator_of self w) with
   | PDict d => Ok (dict_get d "body")
   | PObject _ (Some get) => get "body"
   | v => Raise (AttributeError (type_name v) "get")
   end, w).
Proof.
  unfold native_value, bind, deref, coordinator_of; simpl.
  destruct (data (coordinators w (coordinator self))) as [| | | | | | | |c g];
    try reflexivity.
  destruct g; reflexivity.
Qed.

Lemma native_value_dict (d : gmap string PyVal) :
  data (coordinator_of self w) = PDict d ->
  native_value self w = (Ok (dict_get d "body"), w).
Proof. intros Hd. rewrite native_value_eval, Hd. reflexivity. Qed.

Lemma native_value_no_get (v : PyVal) :
  data (coordinator_of self w) = v ->
  has_get v = false ->
  native_value self w = (Raise (AttributeError (type_name v) "get"), w).
Proof.
  intros Hd Hg. rewrite native_value_eval, Hd.
  destruct v as [| | | | | | | |c g]; try reflexivity; try discriminate Hg.
  destruct g; [discriminate Hg | reflexivity].
Qed.

End NativeValue.

Lemma dict_get_Some (d : gmap string PyVal) (k : string) (v : PyVal) :
  d !! k = Some v -> dict_get d k = v.
Proof. intros H. unfold dict_get. rewrite H. reflexivity. Qed.

Lemma dict_get_None (d : gmap string PyVal) (k : string) :
  d !! k = None -> dict_get d k = PNone.
Proof. intros H. unfold dict_get. rewrite H. reflexivity. Qed.

Lemma dict_get_insert (d : gmap string PyVal) (k : string) (v : PyVal) :
  dict_get (<[k := v]> d) k = v.
Proof. apply dict_get_Some, lookup_insert_eq. Qed.

(** ** native_value *)

(** C1. When the data mapping of the sensor's coordinator holds the value
    [V] under the key "body", [native_value] returns exactly [V]. *)
Theorem native_value_returns_body
    (self : IntegrationBlueprintSensor) (w : World)
    (m : gmap string PyVal) (V : PyVal) :
  data (coordinator_of self w) = PDict m ->
  m !! "body" = Some V ->
  fst (native_value self w) = Ok V.
Proof.
  intros Hd Hb.
  rewrite (native_value_dict self w m Hd); simpl.
  f_equal. now apply dict_get_Some.
Qed.

Lemma native_value_returns_body_witness :
  fst (native_value sensor0 (world_with (PDict post)))
  = Ok (PStr "quia et suscipit").
Proof.
  apply (native_value_returns_body sensor0 (world_with (PDict post)) post).
  - reflexivity.
  - vm_compute. reflexivity.
Defined.

(** C2. When the data mapping of the sensor's coordinator has no key
    "body", [native_value] returns [None]; it does not raise. *)
Theorem native_value_absent_body
    (self : IntegrationBlueprintSensor) (w : World)
    (m : gmap string PyVal) :
  data (coordinator_of self w) = PDict m ->
  m !! "body" = None ->
  fst (native_value self w) = Ok PNone.
Proof.
  intros Hd Hb.
  rewrite (native_value_dict self w m Hd); simpl.
  f_equal. now apply dict_get_None.
Qed.

Lemma native_value_absent_body_witness :
  fst (native_value sensor7 (busy_world_with (PDict post_without_body)))
  = Ok PNone.
Proof.
  apply (native_value_absent_body sensor7
           (busy_world_with (PDict post_without_body)) post_without_body).
  - reflexivity.
  - vm_compute. reflexivity.
Defined.




(** C6. Reading [native_value] changes nothing: the world after the call is
    the world before it, so every coordinator's data mapping is the one it
    was, whether the accessor returns or raises. *)
Theorem native_value_pure_read
    (self : IntegrationBlueprintSensor) (w : World) :
  snd (native_value self w) = w
  /\ forall l : loc,
       data (coordinators (snd (native_value self w)) l)
       = data (coordinators w l).
Proof.
  rewrite native_value_eval; simpl. split; [reflexivity | intros l; reflexivity].
Qed.

(** C7. [native_value] is a function of the coordinator's data alone: two
    sensors, in any two worlds, whose coordinators cache equal data return
    equal results, whatever their entity descriptions, the other state of
    their coordinators and the rest of the two worlds. *)
Theorem native_value_depends_on_data_only
    (self1 self2 : IntegrationBlueprintSensor) (w1 w2 : World) :
  data (coordinator_of self1 w1) = data (coordinator_of self2 w2) ->
  fst (native_value self1 w1) = fst (native_value self2 w2).
Proof.
  intros Heq. rewrite !native_value_eval; simpl. rewrite Heq. reflexivity.
Qed.

Lemma native_value_depends_on_data_only_witness :
  fst (native_value sensor0 (world_with (PDict post)))
  = fst (native_value sensor7 (busy_world_with (PDict post))).
Proof.
  apply (native_value_depends_on_data_only sensor0 sensor7
           (world_with (PDict post)) (busy_world_with (PDict post))).
  reflexivity.
Defined.

(** C9. [native_value] hands out the value stored under "body" as it is,
    with no conversion: whatever value [V] the mapping holds there, a
    string or not, the result is [V] itself. *)
Theorem native_value_verbatim
    (self : IntegrationBlueprintSensor) (w : World)
    (m : gmap string PyVal) (V : PyVal) :
  data (coordinator_of self w) = PDict (<["body" := V]> m) ->
  fst (native_value self w) = Ok V.
Proof.
  intros Hd.
  rewrite (native_value_dict self w _ Hd); simpl.
  f_equal. apply dict_get_insert.
Qed.

Lemma native_value_verbatim_witness :
  fst (native_value sensor7
         (busy_world_with
            (PDict (<["body" := PList [PInt 42; PNone; PDict post]]> post))))
  = Ok (PList [PInt 42; PNone; PDict post]).
Proof.
  apply (native_value_verbatim sensor7
           (busy_world_with
              (PDict (<["body" := PList [PInt 42; PNone; PDict post]]> post)))
           post).
  reflexivity.
Defined.

(** ** ENTITY_DESCRIPTIONS and async_setup_entry *)

(** C5. [ENTITY_DESCRIPTIONS] holds exactly one entity description, with
    key "ha_integration_domain", translation key "ha_integration_domain"
    and icon "mdi:format-quote-close". *)
Theorem ENTITY_DESCRIPTIONS_single_record :
  length ENTITY_DESCRIPTIONS = 1
  /\ exists d : SensorEntityDescription,
       ENTITY_DESCRIPTIONS = [d]
       /\ key d = "ha_integration_domain"
       /\ translation_key d = Some "ha_integration_domain"
       /\ icon d = Some "mdi:format-quote-close".
Proof.
  split; [reflexivity |].
  exists quote_description. repeat split.
Qed.

Section SetupEntry.

Variable hass : HomeAssistant.
Variable entry : Data.IntegrationBlueprintConfigEntry.

(** The coroutine returns at its first step, with whatever the callback
    does to the entities the generator expression yields. *)
Lemma async_setup_entry_eval (async_add_entities : AddEntitiesCallback)
    (w : World) :
  async_setup_entry hass entry async_add_entities w
  = Returned
      (fst (async_add_entities
              (map (mkIntegrationBlueprintSensor
                      (Data.coordinator (Data.runtime_data entry)))
                   ENTITY_DESCRIPTIONS) w))
      (snd (async_add_entities
              (map (mkIntegrationBlueprintSensor
                      (Data.coordinator (Data.runtime_data entry)))
                   ENTITY_DESCRIPTIONS) w)).
Proof.
  unfold async_setup_entry, async_def.
  destruct (async_add_entities _ w) as [o w']. reflexivity.
Qed.

End SetupEntry.

(** C4. [async_setup_entry] calls the callback once, with one sensor per
    record of [ENTITY_DESCRIPTIONS], in order, so with one sensor in all;
    each sensor has the coordinator [entry.runtime_data.coordinator] and its
    record as entity description.  With the recording callback the platform
    ends with exactly that one batch added. *)
Theorem async_setup_entry_adds_one_sensor_per_description
    (hass : HomeAssistant) (entry : Data.IntegrationBlueprintConfigEntry) :
  exists entities : list IntegrationBlueprintSensor,
    (forall (async_add_entities : AddEntitiesCallback) (w : World),
        async_setup_entry hass entry async_add_entities w
        = async_def (async_add_entities entities) w)
    /\ (forall w : World,
           async_setup_entry hass entry record_entities w
           = Returned (Ok tt)
               {| coordinators := coordinators w;
                  added := added w ++ [entities] |})
    /\ map entity_description entities = ENTITY_DESCRIPTIONS
    /\ map coordinator entities
       = map (fun _ => Data.coordinator (Data.runtime_data entry))
             ENTITY_DESCRIPTIONS
    /\ length entities = length ENTITY_DESCRIPTIONS
    /\ entities
       = [ {| coordinator := Data.coordinator (Data.runtime_data entry);
              entity_description := quote_description |} ].
Proof.
  exists (map (mkIntegrationBlueprintSensor
                 (Data.coordinator (Data.runtime_data entry)))
              ENTITY_DESCRIPTIONS).
  split; [| split].
  - intros cb w. reflexivity.
  - intros w. rewrite async_setup_entry_eval. reflexivity.
  - repeat split.
Qed.

(** C10. The [hass] argument is not used: for two [hass] contexts and the
    same entry, callback and world, [async_setup_entry] does the same, and
    the platform is asked to add the same sensors. *)
Theorem async_setup_entry_ignores_hass
    (hass1 hass2 : HomeAssistant)
    (entry : Data.IntegrationBlueprintConfigEntry) :
  (forall (async_add_entities : AddEntitiesCallback) (w : World),
      async_setup_entry hass1 entry async_add_entities w
      = async_setup_entry hass2 entry async_add_entities w)
  /\ (forall w : World,
         async_setup_entry hass1 entry record_entities w
         = Returned (Ok tt)
             {| coordinators := coordinators w;
                added := added w
                  ++ [[mkIntegrationBlueprintSensor
                         (Data.coordinator (Data.runtime_data entry))
                         quote_description]] |}
         /\ async_setup_entry hass2 entry record_entities w
            = Returned (Ok tt)
                {| coordinators := coordinators w;
                   added := added w
                     ++ [[mkIntegrationBlueprintSensor
                            (Data.coordinator (Data.runtime_data entry))
                            quote_description]] |}).
Proof.
  split.
  - intros cb w. reflexivity.
  - intros w. rewrite !async_setup_entry_eval. split; reflexivity.
Qed.

(** The two contexts [hass_a] and [hass_b] differ, and the setup of
    [entry5] adds the same single sensor under both. *)
Example async_setup_entry_hass_a_b :
  config_dir hass_a <> config_dir hass_b
  /\ async_setup_entry hass_a entry5 record_entities (world_with PNone)
     = Returned (Ok tt)
         {| coordinators := coordinators (world_with PNone);
            added := [[mkIntegrationBlueprintSensor 5 quote_description]] |}
  /\ async_setup_entry hass_b entry5 record_entities (world_with PNone)
     = Returned (Ok tt)
         {| coordinators := coordinators (world_with PNone);
            added := [[mkIntegrationBlueprintSensor 5 quote_description]] |}.
Proof. repeat split; discriminate. Qed.

(** ** Further properties of native_value *)

(** X1. On a mapping, [native_value] returns [None] exactly when "body" is
    missing or is [None] itself: the two cases cannot be told apart from
    the sensor's value. *)
Theorem native_value_None_iff
    (self : IntegrationBlueprintSensor) (w : World)
    (m : gmap string PyVal) :
  data (coordinator_of self w) = PDict m ->
  fst (native_value self w) = Ok PNone
  <-> (m !! "body" = None \/ m !! "body" = Some PNone).
Proof.
  intros Hd. rewrite (native_value_dict self w m Hd); simpl.
  unfold dict_get. split.
  - intros H. destruct (m !! "body") as [v|]; [right | left; reflexivity].
    congruence.
  - intros [-> | ->]; reflexivity.
Qed.

Lemma native_value_None_iff_witness :
  fst (native_value sensor7
         (busy_world_with (PDict (<["body" := PNone]> post)))) = Ok PNone
  <-> ((<["body" := PNone]> post) !! "body" = None
       \/ (<["body" := PNone]> post) !! "body" = Some PNone).
Proof.
  apply (native_value_None_iff sensor7
           (busy_world_with (PDict (<["body" := PNone]> post)))).
  reflexivity.
Defined.

(** X2. On a mapping, a value other than [None] comes out of
    [native_value] only if the mapping stores this very value under
    "body". *)
Theorem native_value_value_inv
    (self : IntegrationBlueprintSensor) (w : World)
    (m : gmap string PyVal) (v : PyVal) :
  data (coordinator_of self w) = PDict m ->
  fst (native_value self w) = Ok v ->
  v <> PNone ->
  m !! "body" = Some v.
Proof.
  intros Hd. rewrite (native_value_dict self w m Hd); simpl.
  unfold dict_get. intros H Hv.
  destruct (m !! "body") as [v'|]; congruence.
Qed.

Lemma native_value_value_inv_witness :
  post !! "body" = Some (PStr "quia et suscipit").
Proof.
  apply (native_value_value_inv sensor0 (world_with (PDict post))).
  - reflexivity.
  - vm_compute. reflexivity.
  - discriminate.
Defined.

(** X4. Two mappings that agree under "body" give the same sensor value. *)
Theorem native_value_same_body
    (self1 self2 : IntegrationBlueprintSensor) (w1 w2 : World)
    (m1 m2 : gmap string PyVal) :
  data (coordinator_of self1 w1) = PDict m1 ->
  data (coordinator_of self2 w2) = PDict m2 ->
  m1 !! "body" = m2 !! "body" ->
  fst (native_value self1 w1) = fst (native_value self2 w2).
Proof.
  intros H1 H2 Hb.
  rewrite (native_value_dict _ _ _ H1), (native_value_dict _ _ _ H2); simpl.
  unfold dict_get. rewrite Hb. reflexivity.
Qed.

Lemma native_value_same_body_witness :
  fst (native_value sensor0 (world_with (PDict post)))
  = fst (native_value sensor7
           (busy_world_with
              (PDict (<["body" := PStr "quia et suscipit"]> ∅)))).
Proof.
  apply (native_value_same_body sensor0 sensor7 _ _ post
           (<["body" := PStr "quia et suscipit"]> ∅)).
  - reflexivity.
  - reflexivity.
  - vm_compute. reflexivity.
Defined.

(** X5. Only the key "body" is read: setting any other key of the mapping
    to any value, or deleting it, leaves the sensor's value as it was. *)
Theorem native_value_ignores_other_keys
    (self1 self2 : IntegrationBlueprintSensor) (w1 w2 : World)
    (m : gmap string PyVal) (k : string) (v : PyVal) :
  k <> "body" ->
  data (coordinator_of self1 w1) = PDict m ->
  data (coordinator_of self2 w2) = PDict (<[k := v]> m)
  \/ data (coordinator_of self2 w2) = PDict (delete k m) ->
  fst (native_value self2 w2) = fst (native_value self1 w1).
Proof.
  intros Hk H1 [H2 | H2];
    rewrite (native_value_dict _ _ _ H1), (native_value_dict _ _ _ H2);
    simpl; unfold dict_get.
  - rewrite lookup_insert_ne by exact Hk. reflexivity.
  - rewrite lookup_delete_ne by exact Hk. reflexivity.
Qed.

Lemma native_value_ignores_other_keys_witness :
  fst (native_value sensor7
         (busy_world_with (PDict (<["title" := PInt 0]> post))))
  = fst (native_value sensor0 (world_with (PDict post))).
Proof.
  apply (native_value_ignores_other_keys sensor0 sensor7 _ _ post
           "title" (PInt 0)).
  - discriminate.
  - reflexivity.
  - left. reflexivity.
Defined.


(** ** Setup followed by reads *)

Lemma after_setup_eval (hass : HomeAssistant)
    (entry : Data.IntegrationBlueprintConfigEntry) (w : World) :
  after_setup hass entry w
  = {| coordinators := coordinators w;
       added := added w
         ++ [[mkIntegrationBlueprintSensor
                (Data.coordinator (Data.runtime_data entry))
                quote_description]] |}.
Proof. unfold after_setup. rewrite async_setup_entry_eval. reflexivity. Qed.

Lemma native_value_data_eq
    (self1 self2 : IntegrationBlueprintSensor) (w1 w2 : World) :
  data (coordinator_of self1 w1) = data (coordinator_of self2 w2) ->
  fst (native_value self1 w1) = fst (native_value self2 w2).
Proof.
  intros Heq. rewrite !native_value_eval; simpl. rewrite Heq. reflexivity.
Qed.

Lemma last_added_after_setup (hass : HomeAssistant)
    (entry : Data.IntegrationBlueprintConfigEntry) (w : World) :
  last (added (after_setup hass entry w))
  = Some [mkIntegrationBlueprintSensor
            (Data.coordinator (Data.runtime_data entry)) quote_description].
Proof. rewrite after_setup_eval; simpl. apply last_snoc. Qed.

(** X7. The sensor that the setup of an entry adds reports the entry's
    coordinator: when that coordinator's mapping holds [V] under "body",
    the batch added last is one sensor, whose value after the setup is
    [V]. *)
Theorem setup_then_read_body
    (hass : HomeAssistant) (entry : Data.IntegrationBlueprintConfigEntry)
    (w : World) (m : gmap string PyVal) (V : PyVal) :
  data (coordinators w (Data.coordinator (Data.runtime_data entry)))
  = PDict m ->
  m !! "body" = Some V ->
  exists batch : list IntegrationBlueprintSensor,
    last (added (after_setup hass entry w)) = Some batch
    /\ length batch = 1
    /\ Forall (fun s => fst (native_value s (after_setup hass entry w)) = Ok V)
              batch.
Proof.
  intros Hd Hb. eexists. split; [apply last_added_after_setup |].
  split; [reflexivity |].
  constructor; [| constructor].
  rewrite (native_value_dict _ _ m).
  - simpl. f_equal. apply dict_get_Some, Hb.
  - rewrite after_setup_eval. exact Hd.
Qed.

Lemma setup_then_read_body_witness :
  exists batch : list IntegrationBlueprintSensor,
    last (added (after_setup hass_a entry5 (world_with (PDict post))))
    = Some batch
    /\ length batch = 1
    /\ Forall (fun s =>
                 fst (native_value s
                        (after_setup hass_a entry5 (world_with (PDict post))))
                 = Ok (PStr "quia et suscipit"))
              batch.
Proof.
  apply (setup_then_read_body hass_a entry5 (world_with (PDict post)) post).
  - reflexivity.
  - vm_compute. reflexivity.
Defined.

(** X8. The setup does not look at the coordinator's data: it succeeds also
    when the data has no [get] attribute (it is [None] before the first
    refresh), and every sensor it has added then raises the
    [AttributeError] when read. *)
Theorem setup_then_read_without_get
    (hass : HomeAssistant) (entry : Data.IntegrationBlueprintConfigEntry)
    (w : World) (d : PyVal) :
  data (coordinators w (Data.coordinator (Data.runtime_data entry))) = d ->
  has_get d = false ->
  (exists w' : World,
      async_setup_entry hass entry record_entities w = Returned (Ok tt) w')
  /\ exists batch : list IntegrationBlueprintSensor,
       last (added (after_setup hass entry w)) = Some batch
       /\ length batch = 1
       /\ Forall (fun s =>
                    fst (native_value s (after_setup hass entry w))
                    = Raise (AttributeError (type_name d) "get"))
                 batch.
Proof.
  intros Hd Hm. split.
  - rewrite async_setup_entry_eval. eexists. reflexivity.
  - eexists. split; [apply last_added_after_setup |].
    split; [reflexivity |].
    constructor; [| constructor].
    rewrite (native_value_no_get _ _ d); [reflexivity | | exact Hm].
    rewrite after_setup_eval. exact Hd.
Qed.

Lemma setup_then_read_without_get_witness :
  (exists w' : World,
      async_setup_entry hass_b entry5 record_entities (busy_world_with PNone)
      = Returned (Ok tt) w')
  /\ exists batch : list IntegrationBlueprintSensor,
       last (added (after_setup hass_b entry5 (busy_world_with PNone)))
       = Some batch
       /\ length batch = 1
       /\ Forall (fun s =>
                    fst (native_value s
                           (after_setup hass_b entry5 (busy_world_with PNone)))
                    = Raise (AttributeError "NoneType" "get"))
                 batch.
Proof.
  apply (setup_then_read_without_get hass_b entry5
           (busy_world_with PNone) PNone).
  - reflexivity.
  - reflexivity.
Defined.

(** X9. The setup does not look at what has been added before: setting up
    the same entry twice adds the same sensor twice, in two batches. *)
Theorem setup_twice_adds_twice
    (hass1 hass2 : HomeAssistant)
    (entry : Data.IntegrationBlueprintConfigEntry) (w : World) :
  added (after_setup hass2 entry (after_setup hass1 entry w))
  = (added w
     ++ [ [mkIntegrationBlueprintSensor
             (Data.coordinator (Data.runtime_data entry)) quote_description];
          [mkIntegrationBlueprintSensor
             (Data.coordinator (Data.runtime_data entry)) quote_description]
        ])%list.
Proof.
  rewrite !after_setup_eval; simpl. rewrite <- app_assoc. reflexivity.
Qed.



(** X11. The setup writes to no coordinator itself: with a callback that
    leaves the cached data of the coordinators alone, every sensor reports
    after the setup what it reported before. *)
Theorem setup_preserves_sensor_values
    (hass : HomeAssistant) (entry : Data.IntegrationBlueprintConfigEntry)
    (async_add_entities : AddEntitiesCallback) (w : World)
    (self : IntegrationBlueprintSensor) :
  (forall (es : list IntegrationBlueprintSensor) (l : loc),
      data (coordinators (snd (async_add_entities es w)) l)
      = data (coordinators w l)) ->
  fst (native_value self
         (world_of (async_setup_entry hass entry async_add_entities w)))
  = fst (native_value self w).
Proof.
  intros Hcb. apply native_value_data_eq.
  rewrite async_setup_entry_eval. unfold coordinator_of; simpl. apply Hcb.
Qed.

Lemma setup_preserves_sensor_values_witness :
  fst (native_value sensor0
         (world_of (async_setup_entry hass_a entry5 record_entities
                      (world_with (PDict post)))))
  = fst (native_value sensor0 (world_with (PDict post))).
Proof.
  apply (setup_preserves_sensor_values hass_a entry5 record_entities
           (world_with (PDict post)) sensor0).
  intros es l. reflexivity.
Defined.

(** ** const.py and the entity descriptions *)

(** X12. Every entity description is filed under the integration's domain:
    its key and its translation key are [DOMAIN] of const.py. *)
Theorem ENTITY_DESCRIPTIONS_keyed_by_DOMAIN :
  Forall (fun d => key d = Const.DOMAIN
                   /\ translation_key d = Some Const.DOMAIN)
         ENTITY_DESCRIPTIONS.
Proof. repeat constructor. Qed.
